(** * Semantix.AI front end: the analysis page (frontend/app/page.tsx)

    A shallow embedding of the [Speedometer] component's score mappings and
    of the [Home] component's state and handlers, with the properties of the
    request lifecycle, the tab selection and the score bands. *)

From Stdlib Require Import ZArith QArith Qreduction NArith Bool Ascii String List Lia.
Import ListNotations.

Set Warnings "-register-all".

Local Open Scope Z_scope.

(** ** JavaScript values *)

(** A JavaScript [number].  A finite double is the rational it denotes, so
    that the relational operators, which compare the denoted values, are
    exact; the three non-finite doubles are kept apart (a comparison with
    [NaN] is false). *)
Inductive number : Type :=
| NaN
| NegInfinity
| Finite (q : Q)
| PosInfinity.

(** An integer literal or integer-valued number. *)
Definition num (z : Z) : number := Finite (inject_Z z).

(** [x >= y] of JavaScript. *)
Definition geb (x y : number) : bool :=
  match x, y with
  | NaN, _ | _, NaN => false
  | PosInfinity, _ => true
  | _, NegInfinity => true
  | NegInfinity, _ => false
  | Finite _, PosInfinity => false
  | Finite a, Finite b => Qle_bool b a
  end.

(** [x < y] of JavaScript. *)
Definition ltb (x y : number) : bool :=
  match x, y with
  | NaN, _ | _, NaN => false
  | _, NegInfinity => false
  | NegInfinity, _ => true
  | PosInfinity, _ => false
  | Finite _, PosInfinity => true
  | Finite a, Finite b => negb (Qle_bool b a)
  end.

Declare Scope number_scope.
Delimit Scope number_scope with number.
Notation "x >=? y" := (geb x y) (at level 70, no associativity) : number_scope.
Notation "x <? y" := (ltb x y) (at level 70, no associativity) : number_scope.

(** A runtime string is its sequence of UTF-16 code units; the literals of
    the source are Rocq strings, turned into code units by [lit] where they
    flow into runtime data. *)
Definition jsstring : Type := list N.

Definition lit (s : string) : jsstring :=
  map N_of_ascii (list_ascii_of_string s).

(** The value [JSON.parse] (here: [response.json()]) can produce.  An
    object is the list of its own properties. *)
Inductive json : Type :=
| JNull
| JBool (b : bool)
| JNum (n : number)
| JStr (s : jsstring)
| JArr (items : list json)
| JObj (props : list (jsstring * json)).

(** An error object: its [name] and its [message]. *)
Record JsError : Type := mkError { name : string; message : string }.

(** ** Speedometer (lines 37-89) *)

Module Speedometer.

Local Open Scope number_scope.
Local Open Scope string_scope.

(** Lines 39-43. *)
Definition getScoreColor (score : number) : string :=
  if score >=? num 80 then "text-green-400"
  else if score >=? num 60 then "text-yellow-400"
  else "text-red-400".

(** Line 66, the [stroke] attribute of the progress ring. *)
Definition stroke (score : number) : string :=
  if score >=? num 80 then "#10b981"
  else if score >=? num 60 then "#f59e0b"
  else "#ef4444".

(** Lines 82-84, the caption under the ring. *)
Definition label (score : number) : string :=
  if score >=? num 80 then "Excellent AI Search Optimization"
  else if score >=? num 60 then "Good AI Search Optimization"
  else "Needs Improvement".

(** What the component renders from its [score] prop: the ring's stroke,
    the class and the content of the score text (lines 76-78: the prop
    itself) and the caption.  The [strokeDasharray] of line 70 is a
    floating-point product and is not represented. *)
Record View : Type := mkView {
  ring_stroke : string;
  text_class : string;
  text : number;
  caption : string
}.

Definition render (score : number) : View :=
  {| ring_stroke := stroke score;
     text_class := getScoreColor score;
     text := score;
     caption := label score |}.

(** The three bands the specification names, and how the source's
    constants denote them. *)
Inductive Band : Type := high | medium | low.

Definition band_of_class (c : string) : option Band :=
  if String.eqb c "text-green-400" then Some high
  else if String.eqb c "text-yellow-400" then Some medium
  else if String.eqb c "text-red-400" then Some low
  else None.

Definition band_of_stroke (c : string) : option Band :=
  if String.eqb c "#10b981" then Some high
  else if String.eqb c "#f59e0b" then Some medium
  else if String.eqb c "#ef4444" then Some low
  else None.

Definition band_of_label (l : string) : option Band :=
  if String.eqb l "Excellent AI Search Optimization" then Some high
  else if String.eqb l "Good AI Search Optimization" then Some medium
  else if String.eqb l "Needs Improvement" then Some low
  else None.

(** [scoreColor] and [scoreLabel] of the specification. *)
Definition scoreColor (score : number) : option Band :=
  band_of_class (getScoreColor score).

Definition scoreLabel (score : number) : string := label score.

End Speedometer.

(** ** Home (lines 92-308) *)

(** [String.prototype.trim] removes the WhiteSpace and LineTerminator code
    points of ECMAScript from both ends: TAB, LF, VT, FF, CR, SPACE, NBSP,
    U+1680, U+2000..U+200A, LS, PS, U+202F, U+205F, U+3000 and U+FEFF (all
    of them single code units). *)
Definition isWhiteSpace (c : N) : bool :=
  (((9 <=? c) && (c <=? 13)) || (c =? 32) || (c =? 160) || (c =? 5760)
   || ((8192 <=? c) && (c <=? 8202)) || (c =? 8232) || (c =? 8233)
   || (c =? 8239) || (c =? 8287) || (c =? 12288) || (c =? 65279))%N.

Fixpoint trimStart (s : jsstring) : jsstring :=
  match s with
  | c :: s' => if isWhiteSpace c then trimStart s' else s
  | [] => []
  end.

Definition trimEnd (s : jsstring) : jsstring := rev (trimStart (rev s)).

Definition trim (s : jsstring) : jsstring := trimEnd (trimStart s).

(** Truthiness of a string: the empty string alone is falsy. *)
Definition truthy_string (s : jsstring) : bool :=
  match s with [] => false | _ :: _ => true end.

(** Truthiness of a parsed value, as [analysisResult && ...] tests it. *)
Definition truthy (v : json) : bool :=
  match v with
  | JNull => false
  | JBool b => b
  | JNum NaN => false
  | JNum (Finite q) => negb (Qeq_bool q 0)
  | JNum _ => true
  | JStr s => truthy_string s
  | JArr _ | JObj _ => true
  end.

Inductive ViewTab : Type := facts | scenarios | faq.

(** The four [useState] cells of lines 93-96. *)
Record HomeState : Type := mkHome {
  originalText : jsstring;
  analysisResult : json;
  isLoading : bool;
  activeTab : ViewTab
}.

(** The call of lines 104-110; [body] is the object handed to
    [JSON.stringify]. *)
Record Request : Type := mkRequest {
  url : string;
  method : string;
  headers : list (string * string);
  body : json
}.

(** A response as far as the handler reads it; [ok] is the Fetch API's:
    the status is in 200..299. *)
Record Response : Type := mkResponse { status : Z }.

Definition ok (response : Response) : bool :=
  (200 <=? status response) && (status response <=? 299).

(** An invocation of [analyzeProduct] suspended at one of its two
    [await]s: line 104 or line 116. *)
Inductive Task : Type :=
| AwaitFetch (request : Request)
| AwaitJson (response : Response).

(** The component together with what surrounds it: the build-time value of
    [process.env.NEXT_PUBLIC_API_URL], the suspended invocations, every
    [fetch] dispatched so far and the lines written by [console.error]
    (both oldest first). *)
Record World : Type := mkWorld {
  NEXT_PUBLIC_API_URL : string;
  home : HomeState;
  tasks : list Task;
  fetched : list Request;
  console : list (string * JsError)
}.

Definition with_home (f : HomeState -> HomeState) (w : World) : World :=
  {| NEXT_PUBLIC_API_URL := NEXT_PUBLIC_API_URL w;
     home := f (home w);
     tasks := tasks w;
     fetched := fetched w;
     console := console w |}.

Definition with_tasks (f : list Task -> list Task) (w : World) : World :=
  {| NEXT_PUBLIC_API_URL := NEXT_PUBLIC_API_URL w;
     home := home w;
     tasks := f (tasks w);
     fetched := fetched w;
     console := console w |}.

(** The state at mount: the initial values of lines 93-96. *)
Definition initialHome : HomeState :=
  {| originalText := [];
     analysisResult := JNull;
     isLoading := false;
     activeTab := facts |}.

Definition mount (api_url : string) : World :=
  {| NEXT_PUBLIC_API_URL := api_url;
     home := initialHome;
     tasks := [];
     fetched := [];
     console := [] |}.

(** *** The state setters *)

Definition setOriginalText (v : jsstring) : World -> World :=
  with_home (fun h =>
    {| originalText := v;
       analysisResult := analysisResult h;
       isLoading := isLoading h;
       activeTab := activeTab h |}).

Definition setAnalysisResult (v : json) : World -> World :=
  with_home (fun h =>
    {| originalText := originalText h;
       analysisResult := v;
       isLoading := isLoading h;
       activeTab := activeTab h |}).

Definition setIsLoading (v : bool) : World -> World :=
  with_home (fun h =>
    {| originalText := originalText h;
       analysisResult := analysisResult h;
       isLoading := v;
       activeTab := activeTab h |}).

(** [selectTab] of the specification is this setter (line 231). *)
Definition setActiveTab (v : ViewTab) : World -> World :=
  with_home (fun h =>
    {| originalText := originalText h;
       analysisResult := analysisResult h;
       isLoading := isLoading h;
       activeTab := v |}).

(** *** The environment's operations *)

Definition console_error (msg : string) (error : JsError) (w : World) : World :=
  {| NEXT_PUBLIC_API_URL := NEXT_PUBLIC_API_URL w;
     home := home w;
     tasks := tasks w;
     fetched := fetched w;
     console := console w ++ [(msg, error)] |}.

(** [await fetch(...)]: the request goes out and the invocation is
    suspended until the promise settles. *)
Definition fetch (request : Request) (w : World) : World :=
  {| NEXT_PUBLIC_API_URL := NEXT_PUBLIC_API_URL w;
     home := home w;
     tasks := tasks w ++ [AwaitFetch request];
     fetched := fetched w ++ [request];
     console := console w |}.

Fixpoint remove_nth {A : Type} (i : nat) (l : list A) : list A :=
  match l, i with
  | [], _ => []
  | _ :: l', O => l'
  | x :: l', S i' => x :: remove_nth i' l'
  end.

Fixpoint replace_nth {A : Type} (i : nat) (y : A) (l : list A) : list A :=
  match l, i with
  | [], _ => []
  | _ :: l', O => y :: l'
  | x :: l', S i' => x :: replace_nth i' y l'
  end.

(** The state of a promise once it is settled. *)
Inductive Settled (A : Type) : Type :=
| Fulfilled (value : A)
| Rejected (reason : JsError).

Arguments Fulfilled {A} value.
Arguments Rejected {A} reason.

(** *** analyzeProduct (lines 99-124) *)

Local Open Scope string_scope.
Local Open Scope list_scope.

(** The argument of [fetch], lines 104-110. *)
Definition analyze_request (w : World) : Request :=
  {| url := (NEXT_PUBLIC_API_URL w ++ "/analyze")%string;
     method := "POST";
     headers := [("Content-Type", "application/json")];
     body := JObj [(lit "original_text", JStr (originalText (home w)))] |}.

(** Lines 100-104: from the call to the first [await].  The handler
    reads the text of the render it was created in; the button calls the
    handler of the latest render, whose text is the current cell. *)
Definition analyzeProduct (w : World) : World :=
  if negb (truthy_string (trim (originalText (home w)))) then w
  else fetch (analyze_request w) (setIsLoading true w).

(** Lines 118-120. *)
Definition catch_block (error : JsError) (w : World) : World :=
  console_error "Error analyzing product:" error w.

(** Lines 121-123. *)
Definition finally_block (w : World) : World := setIsLoading false w.

(** Lines 104-116: the invocation suspended as task [i] resumes when its
    [fetch] settles; it runs to the second [await] or through [catch] and
    [finally] to its end.  [None]: task [i] is not waiting for a fetch. *)
Definition fetch_settled (i : nat) (r : Settled Response) (w : World)
  : option World :=
  match nth_error (tasks w) i with
  | Some (AwaitFetch _) =>
      match r with
      | Rejected error =>
          Some (finally_block (catch_block error (with_tasks (remove_nth i) w)))
      | Fulfilled response =>
          if negb (ok response) then
            Some (finally_block
                    (catch_block (mkError "Error" "Failed to analyze product")
                       (with_tasks (remove_nth i) w)))
          else Some (with_tasks (replace_nth i (AwaitJson response)) w)
      end
  | _ => None
  end.

(** Lines 116-123: the invocation resumes when [response.json()] settles
    (it rejects when the body is not JSON text). *)
Definition json_settled (i : nat) (r : Settled json) (w : World)
  : option World :=
  match nth_error (tasks w) i with
  | Some (AwaitJson _) =>
      match r with
      | Rejected error =>
          Some (finally_block (catch_block error (with_tasks (remove_nth i) w)))
      | Fulfilled data =>
          Some (finally_block (setAnalysisResult data (with_tasks (remove_nth i) w)))
      end
  | _ => None
  end.

(** *** What is rendered, as far as it guards the handlers *)

(** Line 160, the [disabled] attribute of the button. *)
Definition button_disabled (w : World) : bool :=
  isLoading (home w) || negb (truthy_string (trim (originalText (home w)))).

(** Lines 182, 208 and 220: the guard under which the summary, the
    speedometer and the tabs are rendered instead of the placeholder:
    [analysisResult] is truthy. *)
Definition result_shown (w : World) : bool := truthy (analysisResult (home w)).

(** *** The events of a session *)

(** What can happen to a mounted page: the user edits the text (line 154),
    clicks the button (line 159; a disabled button fires no click), clicks
    a tab (line 231; the tabs exist only while a result is shown), or a
    pending promise settles. *)
Inductive Event : Type :=
| Change (v : jsstring)
| ClickAnalyze
| ClickTab (tab : ViewTab)
| FetchSettled (i : nat) (r : Settled Response)
| JsonSettled (i : nat) (r : Settled json).

(** [None]: the event cannot happen in this world. *)
Definition step (e : Event) (w : World) : option World :=
  match e with
  | Change v => Some (setOriginalText v w)
  | ClickAnalyze => if button_disabled w then None else Some (analyzeProduct w)
  | ClickTab tab => if result_shown w then Some (setActiveTab tab w) else None
  | FetchSettled i r => fetch_settled i r w
  | JsonSettled i r => json_settled i r w
  end.

Fixpoint run (es : list Event) (w : World) : option World :=
  match es with
  | [] => Some w
  | e :: es' =>
      match step e w with
      | Some w' => run es' w'
      | None => None
      end
  end.

(** The worlds a session can be in when [analyzeProduct] is only ever
    called by the button.  (A render that throws on a result of an
    unexpected shape ends the session; that only removes runs.) *)
Inductive reachable (api_url : string) : World -> Prop :=
| reach_mount : reachable api_url (mount api_url)
| reach_step (w w' : World) (e : Event) :
    reachable api_url w -> step e w = Some w' -> reachable api_url w'.

(** The ways one invocation, suspended as task [i] at its [fetch], ends
    in the [catch] block, with the error it catches: the fetch rejects,
    the response is not ok, or the body is not JSON. *)
Inductive FailurePath (i : nat) : list Event -> JsError -> Prop :=
| TransportFailure (error : JsError) :
    FailurePath i [FetchSettled i (Rejected error)] error
| ServiceError (response : Response) :
    ok response = false ->
    FailurePath i [FetchSettled i (Fulfilled response)]
      (mkError "Error" "Failed to analyze product")
| MalformedBody (response : Response) (error : JsError) :
    ok response = true ->
    FailurePath i [FetchSettled i (Fulfilled response);
                   JsonSettled i (Rejected error)] error.

(** ** The wire shape the specification asks of a success body

    The source does not inspect the body; this predicate follows the
    specification's description of AnalysisResult (its sections 3 and 6)
    and is what the body is compared with below. *)
Module WireShape.

Definition jsstring_eqb (a b : jsstring) : bool :=
  if list_eq_dec N.eq_dec a b then true else false.

Fixpoint prop (key : jsstring) (props : list (jsstring * json))
  : option json :=
  match props with
  | [] => None
  | (k, v) :: props' => if jsstring_eqb k key then Some v else prop key props'
  end.

Definition is_string (v : json) : bool :=
  match v with JStr _ => true | _ => false end.

(** An object whose listed properties are all strings. *)
Definition strings_at (keys : list string) (v : json) : bool :=
  match v with
  | JObj props =>
      forallb (fun k => match prop (lit k) props with
                        | Some (JStr _) => true
                        | _ => false
                        end) keys
  | _ => false
  end.

Definition array_of (p : json -> bool) (v : json) : bool :=
  match v with JArr items => forallb p items | _ => false end.

(** An integer in [0,100]. *)
Definition is_score (v : json) : bool :=
  match v with
  | JNum (Finite q) =>
      Pos.eqb (Qden (Qred q)) 1 && Qle_bool 0 q && Qle_bool q (inject_Z 100)
  | _ => false
  end.

Definition at_key (key : string) (p : json -> bool) (v : json) : bool :=
  match v with
  | JObj props => match prop (lit key) props with
                  | Some x => p x
                  | None => false
                  end
  | _ => false
  end.

Definition is_structure (v : json) : bool :=
  at_key "fact_table" (array_of (strings_at ["key"; "value"])) v
  && at_key "scenarios"
       (array_of (strings_at ["scenario"; "pain_point"; "solution"])) v
  && at_key "faq" (array_of (strings_at ["question"; "answer"])) v.

Definition conforms (v : json) : bool :=
  at_key "gco_score" is_score v
  && at_key "analysis_summary" is_string v
  && at_key "missing_elements" (array_of is_string) v
  && at_key "optimized_structure" is_structure v.

End WireShape.

(** ** Sample data *)

Module Sample.

Definition api_url : string := "http://localhost:8000".

(** A body of the expected shape, with score 85. *)
Definition result85 : json :=
  JObj [ (lit "gco_score", JNum (num 85));
         (lit "analysis_summary", JStr (lit "Clear and specific."));
         (lit "missing_elements", JArr []);
         (lit "optimized_structure",
            JObj [ (lit "fact_table",
                      JArr [JObj [(lit "key", JStr (lit "Weight"));
                                  (lit "value", JStr (lit "2kg"))]]);
                   (lit "scenarios", JArr []);
                   (lit "faq", JArr []) ]) ].

(** The same body with a score out of range. *)
Definition result150 : json :=
  JObj [ (lit "gco_score", JNum (num 150));
         (lit "analysis_summary", JStr (lit "Clear and specific."));
         (lit "missing_elements", JArr []);
         (lit "optimized_structure",
            JObj [ (lit "fact_table", JArr []);
                   (lit "scenarios", JArr []);
                   (lit "faq", JArr []) ]) ].

(** The malformed body of the specification's scenario. *)
Definition not_a_number : json :=
  JObj [ (lit "gco_score", JStr (lit "not-a-number")) ].

Definition ok200 : Response := {| status := 200 |}.
Definition error500 : Response := {| status := 500 |}.

Definition network_error : JsError := mkError "TypeError" "Failed to fetch".

(** The page after the user has typed a description. *)
Definition typed : list Event := [Change (lit "A sturdy steel bottle")].

(** A first analysis that succeeds with [result85]. *)
Definition first_success : list Event :=
  typed ++ [ClickAnalyze;
            FetchSettled 0 (Fulfilled ok200);
            JsonSettled 0 (Fulfilled result85)].

(** The page while the request of a first click is outstanding. *)
Definition in_flight : World :=
  analyzeProduct (setOriginalText (lit "A sturdy steel bottle") (mount api_url)).

(** The page before any analysis, and the run of a first request that
    fails in transit. *)
Definition before_first : World :=
  setOriginalText (lit "A sturdy steel bottle") (mount api_url).

Definition first_failure : list Event :=
  typed ++ [ClickAnalyze; FetchSettled 0 (Rejected network_error)].

(** The page with nothing but blanks in the text area. *)
Definition blanks : World := setOriginalText (lit "   ") (mount api_url).

End Sample.

(** ** The declared response type (lines 7-34) *)

Module Api.

Record FactItem : Type := mkFact { key : jsstring; value : jsstring }.

Record ScenarioItem : Type := mkScenario {
  scenario : jsstring;
  pain_point : jsstring;
  solution : jsstring
}.

Record FAQItem : Type := mkFAQ { question : jsstring; answer : jsstring }.

Record OptimizedStructure : Type := mkStructure {
  fact_table : list FactItem;
  scenarios : list ScenarioItem;
  faq : list FAQItem
}.

Record GCOAnalysisResponse : Type := mkAnalysis {
  gco_score : number;
  analysis_summary : jsstring;
  missing_elements : list jsstring;
  optimized_structure : OptimizedStructure
}.

(** A value of the declared type as the JavaScript value it is. *)
Definition of_fact (f : FactItem) : json :=
  JObj [(lit "key", JStr (key f)); (lit "value", JStr (value f))].

Definition of_scenario (c : ScenarioItem) : json :=
  JObj [(lit "scenario", JStr (scenario c));
        (lit "pain_point", JStr (pain_point c));
        (lit "solution", JStr (solution c))].

Definition of_faq (q : FAQItem) : json :=
  JObj [(lit "question", JStr (question q)); (lit "answer", JStr (answer q))].

Definition of_structure (o : OptimizedStructure) : json :=
  JObj [(lit "fact_table", JArr (map of_fact (fact_table o)));
        (lit "scenarios", JArr (map of_scenario (scenarios o)));
        (lit "faq", JArr (map of_faq (faq o)))].

Definition to_json (r : GCOAnalysisResponse) : json :=
  JObj [(lit "gco_score", JNum (gco_score r));
        (lit "analysis_summary", JStr (analysis_summary r));
        (lit "missing_elements", JArr (map JStr (missing_elements r)));
        (lit "optimized_structure", of_structure (optimized_structure r))].

(** Reading a JavaScript value at the declared type: the properties the
    page reads, each of the type the interfaces give it.  [None]: the
    value is not of the declared type. *)
Definition field (k : string) (v : json) : option json :=
  match v with
  | JObj props => WireShape.prop (lit k) props
  | _ => None
  end.

Definition as_string (v : json) : option jsstring :=
  match v with JStr s => Some s | _ => None end.

Definition as_number (v : json) : option number :=
  match v with JNum n => Some n | _ => None end.

Definition bind {A B : Type} (x : option A) (k : A -> option B) : option B :=
  match x with Some a => k a | None => None end.

Fixpoint traverse {A B : Type} (f : A -> option B) (l : list A)
  : option (list B) :=
  match l with
  | [] => Some []
  | x :: l' => bind (f x) (fun y => bind (traverse f l') (fun ys => Some (y :: ys)))
  end.

Definition as_array {B : Type} (f : json -> option B) (v : json)
  : option (list B) :=
  match v with JArr items => traverse f items | _ => None end.

Definition string_at (k : string) (v : json) : option jsstring :=
  bind (field k v) as_string.

Definition as_fact (v : json) : option FactItem :=
  bind (string_at "key" v) (fun k =>
  bind (string_at "value" v) (fun x =>
  Some (mkFact k x))).

Definition as_scenario (v : json) : option ScenarioItem :=
  bind (string_at "scenario" v) (fun c =>
  bind (string_at "pain_point" v) (fun p =>
  bind (string_at "solution" v) (fun s =>
  Some (mkScenario c p s)))).

Definition as_faq (v : json) : option FAQItem :=
  bind (string_at "question" v) (fun q =>
  bind (string_at "answer" v) (fun a =>
  Some (mkFAQ q a))).

Definition as_structure (v : json) : option OptimizedStructure :=
  bind (bind (field "fact_table" v) (as_array as_fact)) (fun fs =>
  bind (bind (field "scenarios" v) (as_array as_scenario)) (fun cs =>
  bind (bind (field "faq" v) (as_array as_faq)) (fun qs =>
  Some (mkStructure fs cs qs)))).

Definition as_response (v : json) : option GCOAnalysisResponse :=
  bind (bind (field "gco_score" v) as_number) (fun n =>
  bind (string_at "analysis_summary" v) (fun t =>
  bind (bind (field "missing_elements" v) (as_array as_string)) (fun ms =>
  bind (bind (field "optimized_structure" v) as_structure) (fun o =>
  Some (mkAnalysis n t ms o))))).

End Api.

(** A response of the declared type; as a value it is
    [Sample.result85]. *)
Definition response85 : Api.GCOAnalysisResponse :=
  {| Api.gco_score := num 85;
     Api.analysis_summary := lit "Clear and specific.";
     Api.missing_elements := [];
     Api.optimized_structure :=
       {| Api.fact_table := [Api.mkFact (lit "Weight") (lit "2kg")];
          Api.scenarios := [];
          Api.faq := [] |} |}.

(** ** The page Home renders (lines 126-307) *)

(** [Array.prototype.map] with a callback that takes the element and its
    index. *)
Fixpoint array_map_from {A B : Type} (f : A -> nat -> B) (index : nat)
         (l : list A) : list B :=
  match l with
  | [] => []
  | x :: l' => f x index :: array_map_from f (S index) l'
  end.

Definition array_map {A B : Type} (f : A -> nat -> B) (l : list A) : list B :=
  array_map_from f 0 l.

(** [activeTab === tab.id]. *)
Definition ViewTab_eqb (a b : ViewTab) : bool :=
  match a, b with
  | facts, facts | scenarios, scenarios | faq, faq => true
  | _, _ => false
  end.

(** Lines 193-196: a chip of the missing elements. *)
Record Chip : Type := mkChip { chip_key : nat; chip_text : jsstring }.

(** Lines 229-240: a button of the tab bar. *)
Record NavButton : Type := mkNav {
  nav_id : ViewTab;
  nav_label : string;
  nav_active : bool
}.

(** Lines 250-257, 266-284 and 293-296: a row or card of a tab. *)
Record FactRow : Type := mkFactRow {
  row_key : nat;
  row_name : jsstring;
  row_value : jsstring
}.

Record ScenarioCard : Type := mkScenarioCard {
  card_key : nat;
  card_title : jsstring;
  card_pain_point : jsstring;
  card_solution : jsstring
}.

Record FaqCard : Type := mkFaqCard {
  faq_key : nat;
  faq_question : jsstring;
  faq_answer : jsstring
}.

(** Lines 183-201. *)
Record SummaryPanel : Type := mkSummary {
  summary_text : jsstring;
  missing_chips : option (list Chip)
}.

(** Lines 221-301: the tab bar and the three conditional blocks. *)
Record TabsPanel : Type := mkTabs {
  nav : list NavButton;
  facts_block : option (list FactRow);
  scenarios_block : option (list ScenarioCard);
  faq_block : option (list FaqCard)
}.

(** Lines 208-217. *)
Inductive ScorePanel : Type :=
| Placeholder
| Meter (view : Speedometer.View).

(** A child written [v && element] (lines 182 and 220): the element when
    [v] is truthy, else [v] itself, of which React shows nothing when it
    is null, false or the empty string, and the digits when it is a
    number. *)
Inductive Child (A : Type) : Type :=
| Element (a : A)
| Value (v : json).

Arguments Element {A} a.
Arguments Value {A} v.

Record Page : Type := mkPage {
  textarea_value : jsstring;
  analyze_disabled : bool;
  analyze_label : string;
  summary : Child SummaryPanel;
  score_panel : ScorePanel;
  tabs : Child TabsPanel
}.

(** Lines 167-177. *)
Definition button_label (w : World) : string :=
  if isLoading (home w) then "Analyzing..." else "Analyze for AI".

(** Lines 188-199: the chips are rendered when there is an element. *)
Definition summary_panel (r : Api.GCOAnalysisResponse) : SummaryPanel :=
  {| summary_text := Api.analysis_summary r;
     missing_chips :=
       if (0 <? length (Api.missing_elements r))%nat
       then Some (array_map (fun element index => mkChip index element)
                    (Api.missing_elements r))
       else None |}.

(** Lines 224-228. *)
Definition tab_list : list (ViewTab * string) :=
  [(facts, "Facts"); (scenarios, "Scenarios"); (faq, "Q&A")].

Definition tabs_panel (active : ViewTab) (r : Api.GCOAnalysisResponse)
  : TabsPanel :=
  let o := Api.optimized_structure r in
  {| nav := map (fun tab => mkNav (fst tab) (snd tab)
                             (ViewTab_eqb active (fst tab))) tab_list;
     facts_block :=
       if ViewTab_eqb active facts
       then Some (array_map
                    (fun fact index => mkFactRow index (Api.key fact) (Api.value fact))
                    (Api.fact_table o))
       else None;
     scenarios_block :=
       if ViewTab_eqb active scenarios
       then Some (array_map
                    (fun c index =>
                       mkScenarioCard index (Api.scenario c) (Api.pain_point c)
                         (Api.solution c))
                    (Api.scenarios o))
       else None;
     faq_block :=
       if ViewTab_eqb active faq
       then Some (array_map
                    (fun q index => mkFaqCard index (Api.question q) (Api.answer q))
                    (Api.faq o))
       else None |}.

(** The page for a world.  The three guards of lines 182, 208 and 220
    are the same test.  [None]: the stored value is truthy and not of the
    declared type; what the render does with it is not modelled. *)
Definition Home (w : World) : option Page :=
  if result_shown w then
    match Api.as_response (analysisResult (home w)) with
    | Some r =>
        Some {| textarea_value := originalText (home w);
                analyze_disabled := button_disabled w;
                analyze_label := button_label w;
                summary := Element (summary_panel r);
                score_panel := Meter (Speedometer.render (Api.gco_score r));
                tabs := Element (tabs_panel (activeTab (home w)) r) |}
    | None => None
    end
  else
    Some {| textarea_value := originalText (home w);
            analyze_disabled := button_disabled w;
            analyze_label := button_label w;
            summary := Value (analysisResult (home w));
            score_panel := Placeholder;
            tabs := Value (analysisResult (home w)) |}.

(** *** Reading a run *)

(** The event stores a body. *)
Definition stores_result (e : Event) : bool :=
  match e with
  | JsonSettled _ (Fulfilled _) => true
  | _ => false
  end.

(** The event is a click on the button. *)
Definition is_click (e : Event) : bool :=
  match e with ClickAnalyze => true | _ => false end.

(** The error the [catch] block gets when the event ends an invocation
    there. *)
Definition caught (e : Event) : option JsError :=
  match e with
  | FetchSettled _ (Rejected error) => Some error
  | FetchSettled _ (Fulfilled response) =>
      if negb (ok response)
      then Some (mkError "Error" "Failed to analyze product")
      else None
  | JsonSettled _ (Rejected error) => Some error
  | _ => None
  end.

Fixpoint caught_in (es : list Event) : list JsError :=
  match es with
  | [] => []
  | e :: es' =>
      match caught e with
      | Some error => error :: caught_in es'
      | None => caught_in es'
      end
  end.

(** The colour bands in their order. *)
Definition band_rank (b : Speedometer.Band) : nat :=
  match b with
  | Speedometer.low => 0
  | Speedometer.medium => 1
  | Speedometer.high => 2
  end.

(** In a session the loading flag is on exactly while one invocation is
    suspended, and no second one ever is. *)
Definition one_at_a_time (w : World) : Prop :=
  (isLoading (home w) = false /\ tasks w = [])
  \/ (isLoading (home w) = true /\ exists t, tasks w = [t]).

(** * Properties *)

(** ** The score bands *)

Section ScoreBands.

Import Speedometer.
Local Open Scope number_scope.

Lemma geb_num (s c : Z) : (num s >=? num c) = (c <=? s)%Z.
Proof.
  unfold geb, num, Qle_bool; simpl.
  now rewrite !Z.mul_1_r.
Qed.

Lemma ltb_num (s c : Z) : (num s <? num c) = (s <? c)%Z.
Proof.
  unfold ltb, num, Qle_bool; simpl.
  rewrite !Z.mul_1_r.
  now rewrite Z.ltb_antisym.
Qed.

(** Below 60 is below 80, also for a score that is not an integer. *)
Lemma ltb_60_not_geb (score : number) :
  (score <? num 60) = true ->
  (score >=? num 80) = false /\ (score >=? num 60) = false.
Proof.
  destruct score as [| |q|]; simpl; try discriminate; intros H.
  - now split.
  - apply negb_true_iff in H. split; [|exact H].
    destruct (Qle_bool (inject_Z 80) q) eqn:E; [|reflexivity].
    apply Qle_bool_iff in E.
    assert (L : Qle_bool (inject_Z 60) q = true).
    { apply Qle_bool_iff. apply Qle_trans with (inject_Z 80); [|exact E].
      unfold Qle; simpl; lia. }
    congruence.
Qed.

(** The three mappings branch on the same two tests, so the rendered
    view is one of three. *)
Lemma render_cases (score : number) :
  render score =
    if score >=? num 80 then
      mkView "#10b981" "text-green-400" score "Excellent AI Search Optimization"
    else if score >=? num 60 then
      mkView "#f59e0b" "text-yellow-400" score "Good AI Search Optimization"
    else mkView "#ef4444" "text-red-400" score "Needs Improvement".
Proof.
  unfold render, stroke, getScoreColor, label.
  now destruct (score >=? num 80), (score >=? num 60).
Qed.

Ltac band_cases s :=
  unfold scoreColor, scoreLabel, getScoreColor, stroke, label;
  rewrite !geb_num;
  destruct (Z.leb_spec 80 s); [|destruct (Z.leb_spec 60 s)];
  cbn.

(** C7: for an integer score in [0,100], [scoreColor] is high exactly
    from 80 up, medium exactly from 60 to 79 and low exactly below 60;
    the ring's stroke is in the same band; 85 is high, 60 is medium and
    59 is low. *)
Theorem scoreColor_bands (s : Z) :
  (0 <= s <= 100)%Z ->
  (scoreColor (num s) = Some high <-> (80 <= s)%Z)
  /\ (scoreColor (num s) = Some medium <-> (60 <= s < 80)%Z)
  /\ (scoreColor (num s) = Some low <-> (s < 60)%Z)
  /\ (getScoreColor (num s) = "text-green-400"%string <-> (80 <= s)%Z)
  /\ (getScoreColor (num s) = "text-yellow-400"%string <-> (60 <= s < 80)%Z)
  /\ (getScoreColor (num s) = "text-red-400"%string <-> (s < 60)%Z)
  /\ band_of_stroke (stroke (num s)) = scoreColor (num s)
  /\ scoreColor (num 85) = Some high
  /\ scoreColor (num 60) = Some medium
  /\ scoreColor (num 59) = Some low.
Proof.
  intros _.
  band_cases s; repeat split; intros; solve [lia | congruence].
Qed.

Lemma scoreColor_bands_witness :
  (0 <= 85 <= 100)%Z /\ (scoreColor (num 85) = Some high <-> (80 <= 85)%Z).
Proof.
  split; [lia|].
  apply (scoreColor_bands 85); lia.
Defined.

(** C8: for an integer score in [0,100], the colour and the caption are
    in the same band: high with the Excellent caption, medium with the
    Good caption, low with Needs Improvement. *)
Theorem scoreColor_scoreLabel_agree (s : Z) :
  (0 <= s <= 100)%Z ->
  (scoreColor (num s) = Some high
     <-> scoreLabel (num s) = "Excellent AI Search Optimization"%string)
  /\ (scoreColor (num s) = Some medium
     <-> scoreLabel (num s) = "Good AI Search Optimization"%string)
  /\ (scoreColor (num s) = Some low
     <-> scoreLabel (num s) = "Needs Improvement"%string)
  /\ band_of_label (scoreLabel (num s)) = scoreColor (num s)
  /\ scoreColor (num s) <> None.
Proof.
  intros _.
  band_cases s; repeat split; intros; congruence.
Qed.

Lemma scoreColor_scoreLabel_agree_witness :
  (0 <= 60 <= 100)%Z
  /\ band_of_label (scoreLabel (num 60)) = scoreColor (num 60).
Proof.
  split; [lia|].
  apply (scoreColor_scoreLabel_agree 60); lia.
Defined.

(** C10: the mappings are defined on every number: any score below 60,
    negative ones included, is rendered red with Needs Improvement, any
    score of 80 or more, also above 100, green with the Excellent
    caption, and the text shown is the score as it came, unclamped. *)
Theorem render_any_score (score : number) :
  ((score <? num 60) = true ->
     render score = mkView "#ef4444" "text-red-400" score "Needs Improvement")
  /\ ((score >=? num 80) = true ->
     render score =
       mkView "#10b981" "text-green-400" score "Excellent AI Search Optimization")
  /\ text (render score) = score
  /\ scoreColor score <> None
  /\ band_of_label (scoreLabel score) = scoreColor score.
Proof.
  repeat split.
  - intros H. destruct (ltb_60_not_geb score H) as [H80 H60].
    now rewrite render_cases, H80, H60.
  - intros H. now rewrite render_cases, H.
  - unfold scoreColor, getScoreColor.
    now destruct (score >=? num 80), (score >=? num 60).
  - unfold scoreColor, scoreLabel, getScoreColor, label.
    now destruct (score >=? num 80), (score >=? num 60).
Qed.

Lemma render_any_score_witness :
  render (num (-5)) =
    mkView "#ef4444" "text-red-400" (num (-5)) "Needs Improvement"
  /\ render (num 150) =
    mkView "#10b981" "text-green-400" (num 150) "Excellent AI Search Optimization".
Proof.
  split.
  - apply (render_any_score (num (-5))). reflexivity.
  - apply (render_any_score (num 150)). reflexivity.
Defined.

End ScoreBands.

(** ** Lists of suspended invocations *)

Section TaskLists.

Context {A : Type}.
Implicit Types (l : list A) (x y : A) (i : nat).

Lemma nth_error_snoc l x : nth_error (l ++ [x]) (length l) = Some x.
Proof. induction l as [|a l IH]; simpl; auto. Qed.

Lemma remove_nth_snoc l x : remove_nth (length l) (l ++ [x]) = l.
Proof. induction l as [|a l IH]; simpl; [reflexivity | now rewrite IH]. Qed.

Lemma replace_nth_snoc l x y :
  replace_nth (length l) y (l ++ [x]) = l ++ [y].
Proof. induction l as [|a l IH]; simpl; [reflexivity | now rewrite IH]. Qed.

Lemma nth_error_replace_nth l i x y :
  nth_error l i = Some x -> nth_error (replace_nth i y l) i = Some y.
Proof.
  revert i; induction l as [|a l IH]; intros [|i]; simpl; try discriminate; auto.
Qed.

Lemma remove_replace_nth l i y :
  remove_nth i (replace_nth i y l) = remove_nth i l.
Proof.
  revert i; induction l as [|a l IH]; intros [|i]; simpl; auto.
  now rewrite IH.
Qed.

Lemma nth_error_singleton x i y : nth_error [x] i = Some y -> i = O /\ y = x.
Proof.
  destruct i as [|i]; simpl.
  - intros [= <-]; auto.
  - destruct i; discriminate.
Qed.

End TaskLists.

(** ** Blank text *)

Lemma trimStart_whitespace (s : jsstring) :
  forallb isWhiteSpace s = true -> trimStart s = [].
Proof.
  induction s as [|c s IH]; simpl; [reflexivity|].
  intros H. apply andb_true_iff in H as [Hc Hs].
  rewrite Hc. auto.
Qed.

Lemma trim_whitespace (s : jsstring) :
  forallb isWhiteSpace s = true -> trim s = [].
Proof.
  intros H. unfold trim, trimEnd.
  now rewrite (trimStart_whitespace s H).
Qed.

Lemma trimStart_nil_whitespace (s : jsstring) :
  trimStart s = [] -> forallb isWhiteSpace s = true.
Proof.
  induction s as [|c s IH]; simpl; [reflexivity|].
  destruct (isWhiteSpace c); [exact IH | discriminate].
Qed.

(** What [trimStart] leaves does not begin with white space. *)
Lemma trimStart_head (s : jsstring) :
  match trimStart s with
  | [] => True
  | c :: _ => isWhiteSpace c = false
  end.
Proof.
  induction s as [|c s IH]; simpl; [exact I|].
  destruct (isWhiteSpace c) eqn:E; [exact IH | exact E].
Qed.

(** [trim] gives the empty string exactly on the texts that are empty or
    all white space: these are the texts line 100 turns away. *)
Lemma trim_nil_iff (s : jsstring) :
  trim s = [] <-> forallb isWhiteSpace s = true.
Proof.
  split; [|apply trim_whitespace].
  unfold trim, trimEnd. intros H.
  apply (f_equal (@rev N)) in H. rewrite rev_involutive in H. simpl in H.
  apply trimStart_nil_whitespace in H.
  apply trimStart_nil_whitespace.
  pose proof (trimStart_head s) as Hh.
  destruct (trimStart s) as [|c t]; [reflexivity|].
  rewrite forallb_forall in H.
  rewrite (H c) in Hh; [discriminate|].
  apply in_rev. rewrite rev_involutive. now left.
Qed.

(** ** One invocation of analyzeProduct *)

Lemma with_tasks_with_tasks (f g : list Task -> list Task) (w : World) :
  with_tasks f (with_tasks g w) = with_tasks (fun l => f (g l)) w.
Proof. reflexivity. Qed.

(** A call with text that is not blank sets the loading flag, sends one
    request and leaves the invocation suspended behind the others. *)
Lemma analyzeProduct_dispatch (w : World) :
  truthy_string (trim (originalText (home w))) = true ->
  analyzeProduct w = fetch (analyze_request w) (setIsLoading true w).
Proof.
  intros H. unfold analyzeProduct. now rewrite H.
Qed.

Lemma analyzeProduct_task (w : World) :
  truthy_string (trim (originalText (home w))) = true ->
  nth_error (tasks (analyzeProduct w)) (length (tasks w))
  = Some (AwaitFetch (analyze_request w)).
Proof.
  intros H. rewrite (analyzeProduct_dispatch w H). simpl.
  apply nth_error_snoc.
Qed.

(** Every failure path runs the same two blocks on the world without the
    invocation. *)
Lemma failure_path_run (w : World) (i : nat) (request : Request)
      (evs : list Event) (error : JsError) :
  nth_error (tasks w) i = Some (AwaitFetch request) ->
  FailurePath i evs error ->
  run evs w
  = Some (finally_block (catch_block error (with_tasks (remove_nth i) w))).
Proof.
  intros Ht [e | response Hok | response e Hok]; simpl; unfold fetch_settled;
    rewrite Ht; try rewrite Hok; simpl; try reflexivity.
  unfold json_settled; simpl.
  rewrite (nth_error_replace_nth _ _ _ (AwaitJson response) Ht).
  rewrite with_tasks_with_tasks.
  unfold with_tasks; simpl. now rewrite remove_replace_nth.
Qed.

(** A response that is ok and whose body is JSON text runs [try] to its
    end. *)
Lemma success_path_run (w : World) (i : nat) (request : Request)
      (response : Response) (data : json) :
  nth_error (tasks w) i = Some (AwaitFetch request) ->
  ok response = true ->
  run [FetchSettled i (Fulfilled response); JsonSettled i (Fulfilled data)] w
  = Some (finally_block (setAnalysisResult data (with_tasks (remove_nth i) w))).
Proof.
  intros Ht Hok; simpl; unfold fetch_settled.
  rewrite Ht, Hok; simpl.
  unfold json_settled; simpl.
  rewrite (nth_error_replace_nth _ _ _ (AwaitJson response) Ht).
  rewrite with_tasks_with_tasks.
  unfold with_tasks; simpl. now rewrite remove_replace_nth.
Qed.

(** ** The request lifecycle *)

(** C1, as the code has it: on every failure path the invocation ends
    with the loading flag off and one line on the console, and
    [analysisResult] keeps the value it had: what was shown before the
    failure is shown after it, and the placeholder stays when nothing
    was. *)
Theorem failure_keeps_result (w : World) (i : nat) (request : Request)
        (evs : list Event) (error : JsError) :
  nth_error (tasks w) i = Some (AwaitFetch request) ->
  FailurePath i evs error ->
  exists w',
    run evs w = Some w'
    /\ isLoading (home w') = false
    /\ analysisResult (home w') = analysisResult (home w)
    /\ result_shown w' = result_shown w
    /\ activeTab (home w') = activeTab (home w)
    /\ tasks w' = remove_nth i (tasks w)
    /\ console w' = console w ++ [("Error analyzing product:", error)].
Proof.
  intros Ht Hf. eexists. split.
  - exact (failure_path_run w i request evs error Ht Hf).
  - repeat split.
Qed.

(** C1 fails as stated: a result stored by an earlier success is still in
    [analysisResult], and still shown, after a later request gets a 500
    response. *)
Lemma failure_leaves_stale_result :
  ok Sample.error500 = false
  /\ option_map (fun w => (isLoading (home w), analysisResult (home w),
                           result_shown w))
       (run (Sample.first_success
               ++ [ClickAnalyze; FetchSettled 0 (Fulfilled Sample.error500)])
          (mount Sample.api_url))
     = Some (false, Sample.result85, true)
  /\ Sample.result85 <> JNull.
Proof.
  split; [reflexivity|]. split; [vm_compute; reflexivity | discriminate].
Qed.

(** C2, as the code has it: when the response is ok and its body is JSON
    text, the parsed body becomes [analysisResult] as it is, whatever its
    shape, with the loading flag off and nothing on the console; the
    [catch] block is reached only when the body is not JSON text, and then
    [analysisResult] is not written. *)
Theorem success_body_stored_unchecked (w : World) (i : nat)
        (request : Request) (response : Response) :
  nth_error (tasks w) i = Some (AwaitFetch request) ->
  ok response = true ->
  (forall data : json,
      exists w',
        run [FetchSettled i (Fulfilled response);
             JsonSettled i (Fulfilled data)] w = Some w'
        /\ analysisResult (home w') = data
        /\ isLoading (home w') = false
        /\ tasks w' = remove_nth i (tasks w)
        /\ console w' = console w)
  /\ (forall error : JsError,
      exists w',
        run [FetchSettled i (Fulfilled response);
             JsonSettled i (Rejected error)] w = Some w'
        /\ analysisResult (home w') = analysisResult (home w)
        /\ isLoading (home w') = false
        /\ console w' = console w ++ [("Error analyzing product:", error)]).
Proof.
  intros Ht Hok. split.
  - intros data. eexists. split.
    + exact (success_path_run w i request response data Ht Hok).
    + repeat split.
  - intros error. eexists. split.
    + exact (failure_path_run w i request _ error Ht
               (MalformedBody i response error Hok)).
    + repeat split.
Qed.

(** C2 fails as stated: the body of the specification's scenario, which
    has a string for [gco_score] and no other field, and a body whose
    score is 150 both come with status 200 and are stored; the guard of
    the result panels passes and nothing is logged.  (A body of the
    expected shape passes the shape test, which is thus not vacuous.) *)
Lemma malformed_body_is_stored :
  ok Sample.ok200 = true
  /\ WireShape.conforms Sample.not_a_number = false
  /\ WireShape.conforms Sample.result150 = false
  /\ WireShape.conforms Sample.result85 = true
  /\ option_map (fun w => (isLoading (home w), analysisResult (home w),
                           result_shown w, console w))
       (run (Sample.typed
               ++ [ClickAnalyze;
                   FetchSettled 0 (Fulfilled Sample.ok200);
                   JsonSettled 0 (Fulfilled Sample.not_a_number)])
          (mount Sample.api_url))
     = Some (false, Sample.not_a_number, true, [])
  /\ option_map (fun w => (isLoading (home w), analysisResult (home w),
                           result_shown w, console w))
       (run (Sample.typed
               ++ [ClickAnalyze;
                   FetchSettled 0 (Fulfilled Sample.ok200);
                   JsonSettled 0 (Fulfilled Sample.result150)])
          (mount Sample.api_url))
     = Some (false, Sample.result150, true, []).
Proof.
  repeat split; vm_compute; reflexivity.
Qed.

(** No step but a click on a tab writes [activeTab]. *)
Lemma step_keeps_tab (e : Event) (w w' : World) :
  step e w = Some w' ->
  (forall tab, e <> ClickTab tab) ->
  activeTab (home w') = activeTab (home w).
Proof.
  destruct e as [v | | tab | i r | i r]; simpl; intros H Hne.
  - now injection H as <-.
  - destruct (button_disabled w); [discriminate|]. injection H as <-.
    unfold analyzeProduct.
    now destruct (negb (truthy_string (trim (originalText (home w))))).
  - now destruct (Hne tab).
  - unfold fetch_settled in H.
    destruct (nth_error (tasks w) i) as [[rq | rs]|]; try discriminate.
    destruct r as [response | error]; [destruct (negb (ok response))|];
      now injection H as <-.
  - unfold json_settled in H.
    destruct (nth_error (tasks w) i) as [[rq | rs]|]; try discriminate.
    destruct r as [data | error]; now injection H as <-.
Qed.

(** C3, as the code has it: an analysis submitted with text that is not
    blank and completed successfully stores the new result and leaves the
    active tab the one it was before the submission; no event other than
    a click on a tab changes the active tab. *)
Theorem success_keeps_tab (w : World) (response : Response) (data : json) :
  truthy_string (trim (originalText (home w))) = true ->
  ok response = true ->
  (exists w',
      run [FetchSettled (length (tasks w)) (Fulfilled response);
           JsonSettled (length (tasks w)) (Fulfilled data)]
          (analyzeProduct w) = Some w'
      /\ activeTab (home w') = activeTab (home w)
      /\ analysisResult (home w') = data
      /\ isLoading (home w') = false)
  /\ (forall (e : Event) (w0 w1 : World),
      step e w0 = Some w1 ->
      (forall tab, e <> ClickTab tab) ->
      activeTab (home w1) = activeTab (home w0)).
Proof.
  intros Htext Hok. split.
  - eexists. split.
    + exact (success_path_run _ _ _ response data
               (analyzeProduct_task w Htext) Hok).
    + rewrite (analyzeProduct_dispatch w Htext). repeat split.
  - exact step_keeps_tab.
Qed.

(** C3 fails as stated: with the FAQ tab selected after a first result, a
    second successful analysis leaves the FAQ tab active. *)
Lemma success_does_not_reset_tab :
  option_map (fun w => (activeTab (home w), analysisResult (home w)))
    (run (Sample.first_success
            ++ [ClickTab faq;
                ClickAnalyze;
                FetchSettled 0 (Fulfilled Sample.ok200);
                JsonSettled 0 (Fulfilled Sample.result85)])
       (mount Sample.api_url))
  = Some (faq, Sample.result85)
  /\ faq <> facts.
Proof.
  split; [vm_compute; reflexivity | discriminate].
Qed.

Lemma failure_keeps_result_witness :
  nth_error (tasks Sample.in_flight) 0
  = Some (AwaitFetch (analyze_request Sample.in_flight))
  /\ exists w',
      run [FetchSettled 0 (Rejected Sample.network_error)] Sample.in_flight
      = Some w'
      /\ isLoading (home w') = false
      /\ analysisResult (home w') = analysisResult (home Sample.in_flight)
      /\ result_shown w' = result_shown Sample.in_flight
      /\ activeTab (home w') = activeTab (home Sample.in_flight)
      /\ tasks w' = remove_nth 0 (tasks Sample.in_flight)
      /\ console w'
         = console Sample.in_flight
             ++ [("Error analyzing product:", Sample.network_error)].
Proof.
  split; [reflexivity|].
  apply (failure_keeps_result Sample.in_flight 0
           (analyze_request Sample.in_flight)).
  - reflexivity.
  - apply TransportFailure.
Defined.

Lemma success_body_stored_unchecked_witness :
  ok Sample.ok200 = true
  /\ exists w',
      run [FetchSettled 0 (Fulfilled Sample.ok200);
           JsonSettled 0 (Fulfilled Sample.not_a_number)] Sample.in_flight
      = Some w'
      /\ analysisResult (home w') = Sample.not_a_number
      /\ isLoading (home w') = false
      /\ tasks w' = remove_nth 0 (tasks Sample.in_flight)
      /\ console w' = console Sample.in_flight.
Proof.
  split; [reflexivity|].
  apply (success_body_stored_unchecked Sample.in_flight 0
           (analyze_request Sample.in_flight) Sample.ok200);
    reflexivity.
Defined.

Lemma success_keeps_tab_witness :
  ok Sample.ok200 = true
  /\ exists w',
    run [FetchSettled 1 (Fulfilled Sample.ok200);
         JsonSettled 1 (Fulfilled Sample.result85)]
        (analyzeProduct (setActiveTab scenarios Sample.in_flight)) = Some w'
    /\ activeTab (home w') = scenarios
    /\ analysisResult (home w') = Sample.result85
    /\ isLoading (home w') = false.
Proof.
  split; [reflexivity|].
  apply (success_keeps_tab (setActiveTab scenarios Sample.in_flight)
           Sample.ok200 Sample.result85);
    reflexivity.
Defined.

(** ** Resubmission *)

Lemma reachable_one_at_a_time (api_url : string) (w : World) :
  reachable api_url w -> one_at_a_time w.
Proof.
  induction 1 as [| w w' e Hr IH Hs].
  - left; split; reflexivity.
  - destruct e as [v | | tab | i r | i r]; simpl in Hs.
    + injection Hs as <-. exact IH.
    + unfold button_disabled in Hs.
      destruct (isLoading (home w)) eqn:Hl; [discriminate|].
      destruct (truthy_string (trim (originalText (home w)))) eqn:Hb;
        cbn [orb negb] in Hs; [|discriminate].
      injection Hs as <-. rewrite (analyzeProduct_dispatch w Hb).
      destruct IH as [[_ Ht] | [Ht _]]; [|congruence].
      right; split; [reflexivity|]. simpl. rewrite Ht. simpl. eauto.
    + destruct (result_shown w); [|discriminate].
      injection Hs as <-. exact IH.
    + unfold fetch_settled in Hs.
      destruct (nth_error (tasks w) i) as [[rq | rs]|] eqn:Hn; try discriminate.
      destruct IH as [[_ Ht] | [Hl [t Ht]]].
      { rewrite Ht in Hn. destruct i; discriminate. }
      rewrite Ht in Hn. apply nth_error_singleton in Hn as [-> _].
      destruct r as [response | error]; [destruct (negb (ok response))|];
        injection Hs as <-; unfold one_at_a_time; simpl; rewrite Ht; simpl;
        eauto.
    + unfold json_settled in Hs.
      destruct (nth_error (tasks w) i) as [[rq | rs]|] eqn:Hn; try discriminate.
      destruct IH as [[_ Ht] | [Hl [t Ht]]].
      { rewrite Ht in Hn. destruct i; discriminate. }
      rewrite Ht in Hn. apply nth_error_singleton in Hn as [-> _].
      destruct r as [data | error];
        injection Hs as <-; unfold one_at_a_time; simpl; rewrite Ht; simpl;
        eauto.
Qed.

(** C4, as the code has it: [analyzeProduct] does not look at the loading
    flag; called with text that is not blank, in flight or not, it sends
    one more request and suspends one more invocation.  What keeps a
    second request out is the button: it is disabled while the flag is on,
    so in a session at most one invocation is suspended at any time. *)
Theorem resubmission_guarded_by_button_only :
  (forall w : World,
      truthy_string (trim (originalText (home w))) = true ->
      fetched (analyzeProduct w) = fetched w ++ [analyze_request w]
      /\ tasks (analyzeProduct w) = tasks w ++ [AwaitFetch (analyze_request w)]
      /\ (isLoading (home w) = true -> home (analyzeProduct w) = home w))
  /\ (forall w : World,
      isLoading (home w) = true -> step ClickAnalyze w = None)
  /\ (forall (api_url : string) (w : World),
      reachable api_url w -> (length (tasks w) <= 1)%nat).
Proof.
  split; [|split].
  - intros w Htext. rewrite (analyzeProduct_dispatch w Htext).
    repeat split. simpl. destruct (home w) as [t r l a]; simpl.
    now intros ->.
  - intros w Hl. simpl. unfold button_disabled. now rewrite Hl.
  - intros api_url w Hr.
    destruct (reachable_one_at_a_time api_url w Hr) as [[_ ->] | [_ [t ->]]];
      simpl; lia.
Qed.

Lemma resubmission_guarded_by_button_only_witness :
  isLoading (home Sample.in_flight) = true
  /\ fetched (analyzeProduct Sample.in_flight)
     = fetched Sample.in_flight ++ [analyze_request Sample.in_flight]
  /\ step ClickAnalyze Sample.in_flight = None.
Proof.
  split; [reflexivity|]. split.
  - apply (proj1 resubmission_guarded_by_button_only Sample.in_flight).
    reflexivity.
  - apply (proj1 (proj2 resubmission_guarded_by_button_only) Sample.in_flight).
    reflexivity.
Defined.

(** C4 fails as stated: called again while the first request is
    outstanding, [analyzeProduct] sends the request a second time and two
    invocations are suspended. *)
Lemma second_call_in_flight_dispatches :
  isLoading (home Sample.in_flight) = true
  /\ tasks Sample.in_flight = [AwaitFetch (analyze_request Sample.in_flight)]
  /\ fetched (analyzeProduct Sample.in_flight)
     = [analyze_request Sample.in_flight; analyze_request Sample.in_flight]
  /\ tasks (analyzeProduct Sample.in_flight)
     = [AwaitFetch (analyze_request Sample.in_flight);
        AwaitFetch (analyze_request Sample.in_flight)]
  /\ analyzeProduct Sample.in_flight <> Sample.in_flight.
Proof.
  repeat split; try (vm_compute; reflexivity).
  intros H. apply (f_equal (fun w => length (tasks w))) in H.
  vm_compute in H. discriminate.
Qed.

(** ** What a failure leaves behind *)

(** C5, as the code has it: a failed request leaves its trace on the
    console and in the list of requests sent, not in the component: when
    no other request was in flight, the four state cells after the
    failure are what they were before the submission. *)
Theorem failure_recorded_on_console_only (w : World) (evs : list Event)
        (error : JsError) :
  isLoading (home w) = false ->
  truthy_string (trim (originalText (home w))) = true ->
  FailurePath (length (tasks w)) evs error ->
  exists w',
    run evs (analyzeProduct w) = Some w'
    /\ home w' = home w
    /\ console w' = console w ++ [("Error analyzing product:", error)]
    /\ fetched w' = fetched w ++ [analyze_request w]
    /\ tasks w' = tasks w.
Proof.
  intros Hl Htext Hf. eexists. split.
  - exact (failure_path_run _ _ _ evs error (analyzeProduct_task w Htext) Hf).
  - rewrite (analyzeProduct_dispatch w Htext). simpl.
    repeat split.
    + destruct (home w) as [t r l a]; simpl in *. now subst l.
    + apply remove_nth_snoc.
Qed.

Lemma failure_recorded_on_console_only_witness :
  isLoading (home Sample.before_first) = false
  /\ exists w',
      run [FetchSettled 0 (Fulfilled Sample.error500)]
          (analyzeProduct Sample.before_first) = Some w'
      /\ home w' = home Sample.before_first
      /\ console w'
         = console Sample.before_first
             ++ [("Error analyzing product:",
                  mkError "Error" "Failed to analyze product")]
      /\ fetched w'
         = fetched Sample.before_first ++ [analyze_request Sample.before_first]
      /\ tasks w' = tasks Sample.before_first.
Proof.
  split; [reflexivity|].
  apply (failure_recorded_on_console_only Sample.before_first).
  - reflexivity.
  - reflexivity.
  - apply ServiceError. reflexivity.
Defined.

(** C5 fails as stated: after a first request has failed, the component's
    state is the state of the page on which no analysis was ever
    requested; no cell holds an error. *)
Lemma failed_state_is_idle_state :
  option_map home (run Sample.first_failure (mount Sample.api_url))
  = option_map home (run Sample.typed (mount Sample.api_url))
  /\ option_map home (run Sample.typed (mount Sample.api_url))
     = Some {| originalText := lit "A sturdy steel bottle";
               analysisResult := JNull;
               isLoading := false;
               activeTab := facts |}.
Proof.
  split; vm_compute; reflexivity.
Qed.

(** ** Blank input *)

(** C6: with text that is empty or all white space, [analyzeProduct]
    returns at once: state cells, suspended invocations, requests sent
    and console are what they were; and the button is disabled. *)
Theorem blank_submit_is_noop (w : World) :
  forallb isWhiteSpace (originalText (home w)) = true ->
  analyzeProduct w = w
  /\ fetched (analyzeProduct w) = fetched w
  /\ console (analyzeProduct w) = console w
  /\ home (analyzeProduct w) = home w
  /\ button_disabled w = true.
Proof.
  intros H.
  assert (E : analyzeProduct w = w).
  { unfold analyzeProduct. now rewrite (trim_whitespace _ H). }
  rewrite E. repeat split.
  unfold button_disabled. rewrite (trim_whitespace _ H). simpl.
  apply orb_true_r.
Qed.

Lemma blank_submit_is_noop_witness :
  forallb isWhiteSpace (originalText (home Sample.blanks)) = true
  /\ analyzeProduct Sample.blanks = Sample.blanks
  /\ analyzeProduct (mount Sample.api_url) = mount Sample.api_url.
Proof.
  split; [reflexivity|]. split.
  - apply (blank_submit_is_noop Sample.blanks). reflexivity.
  - apply (blank_submit_is_noop (mount Sample.api_url)). reflexivity.
Defined.

(** ** Tab selection *)

(** C9: [setActiveTab] is total and writes the active tab alone: the
    loading flag, the stored result, the text, the suspended invocations,
    the requests sent and the console are untouched; selecting facts
    while facts is active gives back the same world. *)
Theorem setActiveTab_frame (tab : ViewTab) (w : World) :
  activeTab (home (setActiveTab tab w)) = tab
  /\ isLoading (home (setActiveTab tab w)) = isLoading (home w)
  /\ analysisResult (home (setActiveTab tab w)) = analysisResult (home w)
  /\ originalText (home (setActiveTab tab w)) = originalText (home w)
  /\ tasks (setActiveTab tab w) = tasks w
  /\ fetched (setActiveTab tab w) = fetched w
  /\ console (setActiveTab tab w) = console w
  /\ (activeTab (home w) = facts -> setActiveTab facts w = w).
Proof.
  repeat split.
  destruct w as [u [t r l a] ts fs c]; simpl.
  intros ->. reflexivity.
Qed.

Lemma setActiveTab_frame_witness :
  activeTab (home (mount Sample.api_url)) = facts
  /\ setActiveTab facts (mount Sample.api_url) = mount Sample.api_url.
Proof.
  split; [reflexivity|].
  apply (setActiveTab_frame facts (mount Sample.api_url)). reflexivity.
Defined.

(** * Further properties of the page *)

(** ** Events one at a time *)

(** An enabled button means: not loading, and text that passes the test
    of line 100. *)
Lemma enabled_button (w : World) :
  button_disabled w = false ->
  isLoading (home w) = false
  /\ truthy_string (trim (originalText (home w))) = true.
Proof.
  unfold button_disabled. intros H.
  apply orb_false_iff in H as [Hl Hb].
  apply negb_false_iff in Hb. now split.
Qed.

Lemma nonblank_iff (t : jsstring) :
  truthy_string (trim t) = true <-> forallb isWhiteSpace t = false.
Proof.
  pose proof (trim_nil_iff t) as [H1 H2].
  destruct (trim t) as [|c u] eqn:E; simpl.
  - rewrite H1 by reflexivity. split; discriminate.
  - split; [|reflexivity]. intros _.
    destruct (forallb isWhiteSpace t); [|reflexivity].
    now specialize (H2 eq_refl).
Qed.

Ltac step_cases H :=
  match type of H with
  | step ?e ?w = Some _ =>
      destruct e as [v | | tab | i r | i r]; unfold step in H;
      [ injection H as <-
      | let Hb := fresh "Hb" in
        destruct (button_disabled w) eqn:Hb; [discriminate|];
        injection H as <-;
        let Hl := fresh "Hl" in
        let Ht := fresh "Ht" in
        destruct (enabled_button w Hb) as [Hl Ht];
        rewrite (analyzeProduct_dispatch w Ht)
      | destruct (result_shown w) eqn:?; [injection H as <- | discriminate]
      | unfold fetch_settled in H;
        destruct (nth_error (tasks w) i) as [[rq | rs]|] eqn:?;
        try discriminate;
        destruct r as [response | error];
        [destruct (negb (ok response)) eqn:?|];
        injection H as <-
      | unfold json_settled in H;
        destruct (nth_error (tasks w) i) as [[rq | rs]|] eqn:?;
        try discriminate;
        destruct r as [data | error];
        injection H as <- ]
  end.

(** The effect of one event on the text, the stored result, the requests
    sent and the console. *)
Lemma step_effects (e : Event) (w w' : World) :
  step e w = Some w' ->
  NEXT_PUBLIC_API_URL w' = NEXT_PUBLIC_API_URL w
  /\ ((forall v, e <> Change v) ->
      originalText (home w') = originalText (home w))
  /\ (stores_result e = false ->
      analysisResult (home w') = analysisResult (home w))
  /\ fetched w'
     = (if is_click e then fetched w ++ [analyze_request w] else fetched w)
  /\ console w'
     = match caught e with
       | Some error => console w ++ [("Error analyzing product:", error)]
       | None => console w
       end.
Proof.
  intros H. step_cases H; simpl;
    repeat match goal with
           | E : negb _ = _ |- _ => rewrite E
           end;
    repeat split; try discriminate.
  intros Hv. now destruct (Hv v).
Qed.

(** X3: what an event leaves alone.  The text is written by typing only,
    the stored result by a fulfilled body only, a request goes out on a
    click only, and the console gets a line only when an invocation ends
    in [catch]; the line and the request are then the ones of that
    event. *)
Theorem step_footprint (e : Event) (w w' : World) :
  step e w = Some w' ->
  NEXT_PUBLIC_API_URL w' = NEXT_PUBLIC_API_URL w
  /\ ((forall v, e <> Change v) ->
      originalText (home w') = originalText (home w))
  /\ (stores_result e = false ->
      analysisResult (home w') = analysisResult (home w))
  /\ fetched w'
     = (if is_click e then fetched w ++ [analyze_request w] else fetched w)
  /\ console w'
     = match caught e with
       | Some error => console w ++ [("Error analyzing product:", error)]
       | None => console w
       end.
Proof.
  intros H.
  destruct (step_effects e w w' H) as (Hu & Ht & Hr & Hf & Hc).
  repeat split; assumption.
Qed.

Lemma step_footprint_witness :
  step ClickAnalyze Sample.before_first = Some Sample.in_flight
  /\ fetched Sample.in_flight
     = fetched Sample.before_first ++ [analyze_request Sample.before_first]
  /\ console Sample.in_flight = console Sample.before_first.
Proof.
  split; [reflexivity|].
  pose proof (step_footprint ClickAnalyze Sample.before_first Sample.in_flight
                eq_refl) as (_ & _ & _ & Hf & Hc).
  split; [exact Hf | exact Hc].
Defined.



(** ** Whole sessions *)

Lemma run_invariant (P : World -> Prop) :
  (forall e w w', step e w = Some w' -> P w -> P w') ->
  forall es w w', run es w = Some w' -> P w -> P w'.
Proof.
  intros Hstep es. induction es as [|e es IH]; simpl; intros w w' H Hw.
  - now injection H as <-.
  - destruct (step e w) as [w1|] eqn:E; [|discriminate].
    eapply IH; eauto.
Qed.


(** X1: every request a session sends goes to the configured base URL
    followed by /analyze, by POST, with the JSON content type, and its
    body has the one property original_text, holding a text that is not
    blank. *)
Theorem sent_requests_well_formed (api_url : string) (es : list Event)
        (w : World) :
  run es (mount api_url) = Some w ->
  Forall (fun rq =>
            url rq = (api_url ++ "/analyze")%string
            /\ method rq = "POST"
            /\ headers rq = [("Content-Type", "application/json")]
            /\ exists t,
                body rq = JObj [(lit "original_text", JStr t)]
                /\ forallb isWhiteSpace t = false)
         (fetched w).
Proof.
  intros H.
  refine (proj2 (run_invariant
                   (fun w => NEXT_PUBLIC_API_URL w = api_url /\ Forall _ (fetched w))
                   _ es _ _ H _)).
  - clear. intros e w w' H [Hu Hf].
    destruct (step_effects e w w' H) as (Hu' & _ & _ & Hf' & _).
    split; [congruence|]. rewrite Hf'.
    destruct e; simpl; try exact Hf.
    apply Forall_app. split; [exact Hf|].
    constructor; [|constructor].
    unfold step in H. destruct (button_disabled w) eqn:Hb; [discriminate|].
    destruct (enabled_button w Hb) as [_ Ht].
    unfold analyze_request; simpl. rewrite Hu.
    repeat split. eexists. split; [reflexivity|].
    now apply nonblank_iff.
  - split; [reflexivity | constructor].
Qed.

Lemma sent_requests_well_formed_witness :
  run Sample.first_failure (mount Sample.api_url)
  = Some (finally_block (catch_block Sample.network_error
                           (with_tasks (remove_nth 0) Sample.in_flight)))
  /\ Forall (fun rq =>
               url rq = "http://localhost:8000/analyze"
               /\ method rq = "POST"
               /\ headers rq = [("Content-Type", "application/json")]
               /\ exists t,
                   body rq = JObj [(lit "original_text", JStr t)]
                   /\ forallb isWhiteSpace t = false)
       (fetched (finally_block (catch_block Sample.network_error
                                  (with_tasks (remove_nth 0) Sample.in_flight)))).
Proof.
  split; [reflexivity|].
  apply (sent_requests_well_formed Sample.api_url Sample.first_failure).
  reflexivity.
Defined.

(** X4: until a body has been stored, the stored result is null, the
    active tab is facts and the page has the placeholder and neither
    summary nor tabs, whatever else has happened: typing, clicks, failed
    requests. *)
Theorem placeholder_until_first_body (api_url : string) (es : list Event)
        (w : World) :
  run es (mount api_url) = Some w ->
  forallb (fun e => negb (stores_result e)) es = true ->
  analysisResult (home w) = JNull
  /\ activeTab (home w) = facts
  /\ Home w = Some {| textarea_value := originalText (home w);
                      analyze_disabled := button_disabled w;
                      analyze_label := button_label w;
                      summary := Value JNull;
                      score_panel := Placeholder;
                      tabs := Value JNull |}.
Proof.
  intros H Hes.
  assert (G : analysisResult (home w) = JNull /\ activeTab (home w) = facts).
  { assert (G0 : analysisResult (home (mount api_url)) = JNull
                 /\ activeTab (home (mount api_url)) = facts) by (split; reflexivity).
    revert H Hes G0. generalize (mount api_url) as w0.
    induction es as [|e es IH]; simpl; intros w0 H Hes [Hr Ht].
    - injection H as <-. now split.
    - destruct (step e w0) as [w1|] eqn:E; [|discriminate].
      apply andb_true_iff in Hes as [He Hes]. apply negb_true_iff in He.
      apply (IH w1 H Hes).
      destruct (step_effects e w0 w1 E) as (_ & _ & Hres & _ & _).
      split; [rewrite (Hres He); exact Hr|].
      rewrite <- Ht. apply (step_keeps_tab e w0 w1 E).
      intros tab ->. unfold step, result_shown in E.
      rewrite Hr in E. discriminate. }
  destruct G as [Hr Ht]. repeat split; try assumption.
  unfold Home, result_shown. now rewrite Hr.
Qed.

Lemma placeholder_until_first_body_witness :
  run Sample.first_failure (mount Sample.api_url)
  = Some (finally_block (catch_block Sample.network_error
                           (with_tasks (remove_nth 0) Sample.in_flight)))
  /\ Home (finally_block (catch_block Sample.network_error
                            (with_tasks (remove_nth 0) Sample.in_flight)))
     = Some {| textarea_value := lit "A sturdy steel bottle";
               analyze_disabled := false;
               analyze_label := "Analyze for AI";
               summary := Value JNull;
               score_panel := Placeholder;
               tabs := Value JNull |}.
Proof.
  split; [reflexivity|].
  apply (placeholder_until_first_body Sample.api_url Sample.first_failure);
    reflexivity.
Defined.



(** X6: the console of a run is what it was, followed by one line for each
    event that ended an invocation in [catch], in the order of the events,
    each line the fixed message with the error caught; nothing else is
    ever written to it. *)
Theorem console_lists_failures (es : list Event) (w w' : World) :
  run es w = Some w' ->
  console w'
  = console w ++ map (fun error => ("Error analyzing product:", error))
                     (caught_in es).
Proof.
  revert w. induction es as [|e es IH]; simpl; intros w H.
  - injection H as <-. now rewrite app_nil_r.
  - destruct (step e w) as [w1|] eqn:E; [|discriminate].
    rewrite (IH w1 H).
    destruct (step_effects e w w1 E) as (_ & _ & _ & _ & Hc).
    rewrite Hc. destruct (caught e); simpl; [|reflexivity].
    now rewrite <- app_assoc.
Qed.

Lemma console_lists_failures_witness :
  run Sample.first_failure (mount Sample.api_url)
  = Some (finally_block (catch_block Sample.network_error
                           (with_tasks (remove_nth 0) Sample.in_flight)))
  /\ console (finally_block (catch_block Sample.network_error
                               (with_tasks (remove_nth 0) Sample.in_flight)))
     = [("Error analyzing product:", Sample.network_error)].
Proof.
  split; [reflexivity|].
  apply (console_lists_failures Sample.first_failure (mount Sample.api_url)).
  reflexivity.
Defined.

Lemma length_remove_nth {A : Type} (l : list A) (i : nat) (x : A) :
  nth_error l i = Some x -> S (length (remove_nth i l)) = length l.
Proof.
  revert i; induction l as [|a l IH]; intros [|i]; simpl; try discriminate.
  - reflexivity.
  - intros H. now rewrite (IH i H).
Qed.

Lemma length_replace_nth {A : Type} (l : list A) (i : nat) (y : A) :
  length (replace_nth i y l) = length l.
Proof.
  revert i; induction l as [|a l IH]; intros [|i]; simpl; auto.
Qed.

(** One event keeps the balance of requests sent against invocations
    suspended, lines logged and bodies stored. *)
Lemma step_balance (e : Event) (w w' : World) :
  step e w = Some w' ->
  (length (fetched w') + length (tasks w) + length (console w)
   = length (fetched w) + length (tasks w') + length (console w')
     + (if stores_result e then 1 else 0))%nat.
Proof.
  intros H. step_cases H; simpl;
    rewrite ?length_app, ?length_replace_nth; simpl;
    try match goal with
        | E : nth_error (tasks _) _ = Some _ |- _ =>
            rewrite <- (length_remove_nth _ _ _ E)
        end;
    lia.
Qed.

(** X7: every request of a session is accounted for: the number of
    requests sent is the number of lines on the console plus the number of
    bodies stored plus the number of invocations still suspended. *)
Theorem requests_accounted_for (api_url : string) (es : list Event)
        (w : World) :
  run es (mount api_url) = Some w ->
  length (fetched w)
  = (length (console w) + length (filter stores_result es)
     + length (tasks w))%nat.
Proof.
  intros H.
  assert (G : forall es w0 w1,
             run es w0 = Some w1 ->
             (length (fetched w1) + length (tasks w0) + length (console w0)
              = length (fetched w0) + length (tasks w1) + length (console w1)
                + length (filter stores_result es))%nat).
  { clear. induction es as [|e es IH]; simpl; intros w0 w1 H.
    - injection H as <-. lia.
    - destruct (step e w0) as [w2|] eqn:E; [|discriminate].
      pose proof (step_balance e w0 w2 E) as B.
      pose proof (IH w2 w1 H) as R.
      destruct (stores_result e); simpl; lia. }
  specialize (G es (mount api_url) w H). simpl in G. lia.
Qed.

Lemma requests_accounted_for_witness :
  run Sample.first_success (mount Sample.api_url)
  = Some (finally_block
            (setAnalysisResult Sample.result85
               (with_tasks (remove_nth 0) Sample.in_flight)))
  /\ length (fetched (finally_block
                        (setAnalysisResult Sample.result85
                           (with_tasks (remove_nth 0) Sample.in_flight))))
     = (0 + 1 + 0)%nat.
Proof.
  split; [reflexivity|].
  apply (requests_accounted_for Sample.api_url Sample.first_success).
  reflexivity.
Defined.

(** ** Overlapping invocations *)





(** ** More on the score bands *)

Section MoreScoreBands.

Import Speedometer.
Local Open Scope number_scope.

(** A number at least a number that is at least [c] is at least [c]. *)
Lemma geb_trans (x y : number) (c : Z) :
  (y >=? x) = true -> (x >=? num c) = true -> (y >=? num c) = true.
Proof.
  destruct x as [| |a|], y as [| |b|]; simpl; try discriminate; auto.
  intros Hab Hca. apply Qle_bool_iff in Hab, Hca. apply Qle_bool_iff.
  now apply Qle_trans with a.
Qed.

(** X10: the band never goes down when the score goes up: for numbers
    with [y >= x], integers or not, the colour of [y] is of the band of
    [x] or of a higher one. *)
Theorem band_monotone (x y : number) :
  (y >=? x) = true ->
  exists bx bj,
    scoreColor x = Some bx
    /\ scoreColor y = Some bj
    /\ (band_rank bx <= band_rank bj)%nat.
Proof.
  intros H. unfold scoreColor, getScoreColor.
  pose proof (geb_trans x y 80 H) as T80.
  pose proof (geb_trans x y 60 H) as T60.
  destruct (x >=? num 80) eqn:X80; [rewrite (T80 eq_refl)|];
    [|destruct (x >=? num 60) eqn:X60; [rewrite (T60 eq_refl)|]];
    destruct (y >=? num 80); try destruct (y >=? num 60);
    cbn; do 2 eexists; repeat split; simpl; lia.
Qed.

Lemma band_monotone_witness :
  (Finite (121 # 2) >=? num 59) = true
  /\ exists bx bj,
      scoreColor (num 59) = Some bx
      /\ scoreColor (Finite (121 # 2)) = Some bj
      /\ (band_rank bx <= band_rank bj)%nat.
Proof.
  split; [reflexivity|].
  apply (band_monotone (num 59) (Finite (121 # 2))). reflexivity.
Defined.

(** X11: every number from 60 up to but not 80, integer or not, is
    rendered amber with the Good caption, and a score that compares with
    nothing is rendered red with Needs Improvement. *)
Theorem render_middle_band (score : number) :
  ((score >=? num 60) = true ->
   (score <? num 80) = true ->
   render score
   = mkView "#f59e0b" "text-yellow-400" score "Good AI Search Optimization")
  /\ render NaN = mkView "#ef4444" "text-red-400" NaN "Needs Improvement".
Proof.
  split; [|reflexivity].
  intros H60 H80. rewrite render_cases, H60.
  destruct score as [| |q|]; simpl in *; try discriminate.
  apply negb_true_iff in H80. now rewrite H80.
Qed.

Lemma render_middle_band_witness :
  render (Finite (159 # 2))
  = mkView "#f59e0b" "text-yellow-400" (Finite (159 # 2))
      "Good AI Search Optimization".
Proof.
  apply (render_middle_band (Finite (159 # 2))); reflexivity.
Defined.

End MoreScoreBands.

(** ** The rendered page *)

Section ArrayMap.

Context {A B : Type} (f : A -> nat -> B).

Lemma array_map_from_length (k : nat) (l : list A) :
  length (array_map_from f k l) = length l.
Proof.
  revert k; induction l as [|x l IH]; intros k; simpl; auto.
Qed.

Lemma array_map_from_nth (k : nat) (l : list A) (i : nat) :
  nth_error (array_map_from f k l) i
  = option_map (fun x => f x (k + i)%nat) (nth_error l i).
Proof.
  revert k i; induction l as [|x l IH]; intros k [|i]; simpl; auto.
  - now rewrite Nat.add_0_r.
  - rewrite IH. now rewrite Nat.add_succ_r.
Qed.

(** The callback gets each element with its own index, in order. *)
Lemma array_map_nth (l : list A) (i : nat) :
  nth_error (array_map f l) i = option_map (fun x => f x i) (nth_error l i).
Proof. exact (array_map_from_nth 0 l i). Qed.

Lemma array_map_length (l : list A) : length (array_map f l) = length l.
Proof. exact (array_map_from_length 0 l). Qed.

End ArrayMap.

(** X12: the chips block is rendered exactly when there is a missing
    element; it then has one chip per element, in order, chip [i] keyed
    [i] and showing element [i]. *)
Theorem chips_follow_missing_elements (r : Api.GCOAnalysisResponse) :
  (missing_chips (summary_panel r) = None <-> Api.missing_elements r = [])
  /\ (forall chips,
      missing_chips (summary_panel r) = Some chips ->
      length chips = length (Api.missing_elements r)
      /\ forall i,
          nth_error chips i
          = option_map (mkChip i) (nth_error (Api.missing_elements r) i)).
Proof.
  unfold summary_panel; simpl.
  destruct (Api.missing_elements r) as [|m ms]; simpl.
  - split; [split; reflexivity | discriminate].
  - split; [split; discriminate|].
    intros chips [= <-]. split.
    + exact (array_map_length _ (m :: ms)).
    + intros i.
      exact (array_map_nth (fun element index => mkChip index element)
               (m :: ms) i).
Qed.

Lemma chips_follow_missing_elements_witness :
  missing_chips (summary_panel response85) = None.
Proof.
  apply (proj1 (chips_follow_missing_elements response85)). reflexivity.
Defined.

(** X13: of the three blocks under the tab bar exactly the one of the
    active tab is rendered, and only its button is highlighted; the block
    has one row or card per entry of its sequence, in order, entry [i]
    keyed [i]; an empty sequence gives an empty block. *)
Theorem one_block_per_tab (active : ViewTab) (r : Api.GCOAnalysisResponse) :
  map nav_id (nav (tabs_panel active r)) = [facts; scenarios; faq]
  /\ map nav_id (filter nav_active (nav (tabs_panel active r))) = [active]
  /\ (facts_block (tabs_panel active r) <> None <-> active = facts)
  /\ (scenarios_block (tabs_panel active r) <> None <-> active = scenarios)
  /\ (faq_block (tabs_panel active r) <> None <-> active = faq)
  /\ (forall rows,
      facts_block (tabs_panel active r) = Some rows ->
      length rows = length (Api.fact_table (Api.optimized_structure r))
      /\ forall i,
          nth_error rows i
          = option_map (fun f => mkFactRow i (Api.key f) (Api.value f))
              (nth_error (Api.fact_table (Api.optimized_structure r)) i))
  /\ (forall cards,
      scenarios_block (tabs_panel active r) = Some cards ->
      length cards = length (Api.scenarios (Api.optimized_structure r))
      /\ forall i,
          nth_error cards i
          = option_map (fun c => mkScenarioCard i (Api.scenario c)
                                   (Api.pain_point c) (Api.solution c))
              (nth_error (Api.scenarios (Api.optimized_structure r)) i))
  /\ (forall cards,
      faq_block (tabs_panel active r) = Some cards ->
      length cards = length (Api.faq (Api.optimized_structure r))
      /\ forall i,
          nth_error cards i
          = option_map (fun q => mkFaqCard i (Api.question q) (Api.answer q))
              (nth_error (Api.faq (Api.optimized_structure r)) i)).
Proof.
  split; [reflexivity|].
  split; [now destruct active|].
  split; [destruct active; simpl; split; congruence|].
  split; [destruct active; simpl; split; congruence|].
  split; [destruct active; simpl; split; congruence|].
  repeat split; destruct active; simpl in *; try discriminate;
    injection H as <-;
    first [apply array_map_length | apply array_map_nth].
Qed.

Lemma one_block_per_tab_witness :
  facts_block (tabs_panel facts response85)
  = Some [mkFactRow 0 (lit "Weight") (lit "2kg")]
  /\ length [mkFactRow 0 (lit "Weight") (lit "2kg")]
     = length (Api.fact_table (Api.optimized_structure response85)).
Proof.
  split; [reflexivity|].
  apply (proj1 (proj2 (proj2 (proj2 (proj2 (proj2
           (one_block_per_tab facts response85))))))).
  reflexivity.
Defined.

(** A value of the declared type reads back as itself. *)
Lemma traverse_map {A B : Type} (f : A -> option B) (g : B -> A) (l : list B) :
  (forall x, f (g x) = Some x) -> Api.traverse f (map g l) = Some l.
Proof.
  intros H. induction l as [|x l IH]; simpl; [reflexivity|].
  now rewrite H, IH.
Qed.

Lemma as_structure_of_structure (o : Api.OptimizedStructure) :
  Api.as_structure (Api.of_structure o) = Some o.
Proof.
  destruct o as [fs cs qs].
  unfold Api.as_structure, Api.of_structure, Api.field; simpl.
  rewrite (traverse_map Api.as_fact Api.of_fact fs) by (now intros []).
  rewrite (traverse_map Api.as_scenario Api.of_scenario cs) by (now intros []).
  rewrite (traverse_map Api.as_faq Api.of_faq qs) by (now intros []).
  reflexivity.
Qed.

Lemma as_response_to_json (r : Api.GCOAnalysisResponse) :
  Api.as_response (Api.to_json r) = Some r.
Proof.
  destruct r as [n t ms o].
  unfold Api.as_response, Api.to_json, Api.string_at, Api.field; simpl.
  rewrite (traverse_map Api.as_string JStr ms) by reflexivity.
  simpl. rewrite as_structure_of_structure. reflexivity.
Qed.

(** X14: when a request sent with text that is not blank is answered ok
    with a body of the declared type, the page shows the speedometer for
    the body's score as it came, the summary with its chips, and the
    block of the tab that was active before; the text is kept and the
    button is enabled again with its idle label. *)
Theorem success_renders_response (w : World) (response : Response)
        (r : Api.GCOAnalysisResponse) :
  forallb isWhiteSpace (originalText (home w)) = false ->
  ok response = true ->
  exists w',
    run [FetchSettled (length (tasks w)) (Fulfilled response);
         JsonSettled (length (tasks w)) (Fulfilled (Api.to_json r))]
        (analyzeProduct w) = Some w'
    /\ Home w'
       = Some {| textarea_value := originalText (home w);
                 analyze_disabled := false;
                 analyze_label := "Analyze for AI";
                 summary := Element (summary_panel r);
                 score_panel := Meter (Speedometer.render (Api.gco_score r));
                 tabs := Element (tabs_panel (activeTab (home w)) r) |}.
Proof.
  intros Hb Hok. apply nonblank_iff in Hb.
  eexists. split.
  - exact (success_path_run _ _ _ response (Api.to_json r)
             (analyzeProduct_task w Hb) Hok).
  - rewrite (analyzeProduct_dispatch w Hb).
    unfold Home, result_shown, button_disabled, button_label; simpl.
    rewrite as_response_to_json, Hb. reflexivity.
Qed.

Lemma success_renders_response_witness :
  ok Sample.ok200 = true
  /\ exists w',
      run [FetchSettled 0 (Fulfilled Sample.ok200);
           JsonSettled 0 (Fulfilled (Api.to_json response85))]
          (analyzeProduct Sample.before_first) = Some w'
      /\ Home w'
         = Some {| textarea_value := lit "A sturdy steel bottle";
                   analyze_disabled := false;
                   analyze_label := "Analyze for AI";
                   summary := Element (summary_panel response85);
                   score_panel :=
                     Meter (Speedometer.render (Api.gco_score response85));
                   tabs := Element (tabs_panel facts response85) |}.
Proof.
  split; [reflexivity|].
  apply (success_renders_response Sample.before_first Sample.ok200 response85);
    reflexivity.
Defined.

Lemma response85_value : Api.to_json response85 = Sample.result85.
Proof. reflexivity. Qed.

(** X15: a body that is falsy (null, false, 0, the empty string) answered
    ok is stored like any other and nothing is logged, but the page then
    has the placeholder for the speedometer and, for the summary and the
    tabs, the stored value itself, also when a result was shown
    before. *)
Theorem falsy_body_shows_placeholder (w : World) (response : Response)
        (data : json) :
  forallb isWhiteSpace (originalText (home w)) = false ->
  ok response = true ->
  truthy data = false ->
  exists w',
    run [FetchSettled (length (tasks w)) (Fulfilled response);
         JsonSettled (length (tasks w)) (Fulfilled data)]
        (analyzeProduct w) = Some w'
    /\ analysisResult (home w') = data
    /\ console w' = console w
    /\ Home w'
       = Some {| textarea_value := originalText (home w);
                 analyze_disabled := false;
                 analyze_label := "Analyze for AI";
                 summary := Value data;
                 score_panel := Placeholder;
                 tabs := Value data |}.
Proof.
  intros Hb Hok Hd. apply nonblank_iff in Hb.
  eexists. split.
  - exact (success_path_run _ _ _ response data (analyzeProduct_task w Hb) Hok).
  - rewrite (analyzeProduct_dispatch w Hb).
    unfold Home, result_shown, button_disabled, button_label; simpl.
    rewrite Hd, Hb. repeat split.
Qed.

Lemma falsy_body_shows_placeholder_witness :
  truthy (JNum (num 0)) = false
  /\ exists w',
      run (Sample.first_success
             ++ [ClickAnalyze;
                 FetchSettled 0 (Fulfilled Sample.ok200);
                 JsonSettled 0 (Fulfilled (JNum (num 0)))])
          (mount Sample.api_url) = Some w'
      /\ analysisResult (home w') = JNum (num 0)
      /\ console w' = []
      /\ Home w'
         = Some {| textarea_value := lit "A sturdy steel bottle";
                   analyze_disabled := false;
                   analyze_label := "Analyze for AI";
                   summary := Value (JNum (num 0));
                   score_panel := Placeholder;
                   tabs := Value (JNum (num 0)) |}.
Proof.
  split; [reflexivity|].
  apply (falsy_body_shows_placeholder
           (finally_block
              (setAnalysisResult Sample.result85
                 (with_tasks (remove_nth 0) Sample.in_flight)))
           Sample.ok200 (JNum (num 0)));
    reflexivity.
Defined.
